(** * mock_cpp_agent/send_report.cpp: the mock reporting client

    A shallow embedding of [main] of [send_report.cpp] and of the part of
    libcurl's easy interface it calls, followed by the properties of the
    program that the specification's claims are about.

    The program is a straight line: check [argc], build a fixed JSON text,
    obtain a curl handle, set four options, perform the transfer once, log a
    failure, release, return.  Its effects (writes to [std::cerr] and calls
    into libcurl) are recorded in a trace; what libcurl and the network
    answer is given by an environment, over which the general theorems
    quantify. *)

From Stdlib Require Import String Ascii List ZArith Lia Bool.
Import ListNotations.

Local Open Scope string_scope.
Local Open Scope list_scope.
Local Open Scope Z_scope.

(** ** C strings *)

(** The terminator of a C string. *)
Definition NUL : ascii := "000"%char.

(** What a consumer of a [const char*] reads: the characters before the
    first terminator.  [std::string::c_str] hands out such a pointer, and a
    [std::string] built from a [char*] takes the same characters. *)
Fixpoint c_str (s : string) : string :=
  match s with
  | EmptyString => EmptyString
  | String c r => if Ascii.eqb c NUL then EmptyString else String c (c_str r)
  end.

(** A text without a terminator inside, as every [argv] entry is. *)
Fixpoint nul_free (s : string) : bool :=
  match s with
  | EmptyString => true
  | String c r => negb (Ascii.eqb c NUL) && nul_free r
  end.

(** The line feed written as [\n] in the source. *)
Definition nl : string := String "010"%char EmptyString.

(** The double quote character, as a one-character text. *)
Definition dq : string := String (ascii_of_nat 34) EmptyString.

(** A JSON string token: the text between double quotes. *)
Definition q (s : string) : string := (dq ++ s ++ dq)%string.

(** ** The part of libcurl the program uses *)

Module Curl.

(** [CURLcode]: the result of a transfer.  Only [CURLE_OK] is named by the
    program; every other value is an error. *)
Definition CURLcode := Z.
Definition CURLE_OK : CURLcode := 0.
Definition CURLE_HTTP_RETURNED_ERROR : CURLcode := 22.

(** [struct curl_slist*]: a list of texts; [NULL] is the empty list. *)
Definition curl_slist := list string.
Definition NULL : curl_slist := [].

(** [curl_slist_append] copies the C string it is given to the end of the
    list. *)
Definition curl_slist_append (l : curl_slist) (s : string) : curl_slist :=
  l ++ [c_str s].

(** The options the program sets, each with its argument. *)
Inductive CURLoption : Type :=
| CURLOPT_URL (u : string)
| CURLOPT_HTTPHEADER (l : curl_slist)
| CURLOPT_POSTFIELDS (p : string)
| CURLOPT_POSTFIELDSIZE (n : Z).

(** The state of an easy handle, as far as these options reach.
    [failonerror] is [CURLOPT_FAILONERROR], which the program never sets;
    it is kept to say what [curl_easy_perform] answers to an HTTP error
    status. *)
Record CURL : Type := mkCURL {
  url : option string;
  httpheader : curl_slist;
  postfields : option string;
  postfieldsize : Z;
  failonerror : bool
}.

(** The handle [curl_easy_init] returns when it succeeds. *)
Definition fresh : CURL :=
  {| url := None; httpheader := NULL; postfields := None;
     postfieldsize := -1; failonerror := false |}.

(** [curl_easy_setopt].  The URL is copied as a C string; the header list
    and the POST data are kept by reference (the buffer as a whole, of
    which [postfieldsize] bytes are sent). *)
Definition curl_easy_setopt (h : CURL) (o : CURLoption) : CURL :=
  match o with
  | CURLOPT_URL u =>
      mkCURL (Some (c_str u)) (httpheader h) (postfields h)
             (postfieldsize h) (failonerror h)
  | CURLOPT_HTTPHEADER l =>
      mkCURL (url h) l (postfields h) (postfieldsize h) (failonerror h)
  | CURLOPT_POSTFIELDS p =>
      mkCURL (url h) (httpheader h) (Some p) (postfieldsize h)
             (failonerror h)
  | CURLOPT_POSTFIELDSIZE n =>
      mkCURL (url h) (httpheader h) (postfields h) n (failonerror h)
  end.

Inductive Method : Type := GET | POST.

(** The transfer a handle asks libcurl for, as the options say it: the URL
    text, the custom header list and the POST data, each as handed over and
    before libcurl interprets any of them.  Setting [CURLOPT_POSTFIELDS]
    makes an HTTP transfer a POST; the data is [postfieldsize] bytes of the
    buffer, or the buffer up to its terminator when the size is negative.
    What of this reaches the wire is libcurl's doing: see [header_line] for
    the custom headers; whether HTTP is spoken at all depends on the URL. *)
Record Request : Type := mkRequest {
  req_method : Method;
  req_url : string;
  req_headers : list string;
  req_body : string
}.

Definition request_of (h : CURL) : Request :=
  {| req_method := match postfields h with Some _ => POST | None => GET end;
     req_url := match url h with Some u => u | None => "" end;
     req_headers := httpheader h;
     req_body :=
       match postfields h with
       | Some p =>
           if postfieldsize h <? 0 then c_str p
           else substring 0 (Z.to_nat (postfieldsize h)) p
       | None => ""
       end |}.

(** How a transfer ends.  [HttpResponse]: an HTTP exchange carried through,
    answered with this status.  [NetFailure]: a failure with no HTTP
    response (no connection, timeout, a URL libcurl rejects, ...) with the
    nonzero [CURLcode] libcurl reports for it.  [HttpFailure]: a status line
    came back and the transfer then failed with a nonzero code (body cut
    short, ...).  [Completed]: the transfer went well without any HTTP
    exchange, the URL naming another protocol ([file://], ...). *)
Inductive TransportResult : Type :=
| HttpResponse (status : Z)
| NetFailure (code : positive)
| HttpFailure (status : Z) (code : positive)
| Completed.

(** The [CURLcode] of a transfer.  A response with an error status is a
    completed transfer unless [CURLOPT_FAILONERROR] was set. *)
Definition code_of (h : CURL) (r : TransportResult) : CURLcode :=
  match r with
  | HttpResponse status =>
      if failonerror h && (400 <=? status) then CURLE_HTTP_RETURNED_ERROR
      else CURLE_OK
  | NetFailure c => Z.pos c
  | HttpFailure _ c => Z.pos c
  | Completed => CURLE_OK
  end.


(** ** Custom headers on the wire *)


(** libcurl's [ISSPACE]: space, tab and the characters 10 to 13. *)
Definition isspace (c : ascii) : bool :=
  let n := nat_of_ascii c in
  ((n =? 32) || (n =? 9) || ((10 <=? n) && (n <=? 13)))%nat.

(** A text of white space only (the empty text included). *)
Fixpoint blank (s : string) : bool :=
  match s with
  | EmptyString => true
  | String c r => isspace c && blank r
  end.


(** A text cut at the first occurrence of a character: what is before it
    and what is after it. *)
Fixpoint split_at (d : ascii) (s : string) : option (string * string) :=
  match s with
  | EmptyString => None
  | String c r =>
      if Ascii.eqb c d then Some (EmptyString, r)
      else match split_at d r with
           | Some (a, b) => Some (String c a, b)
           | None => None
           end
  end.

(** What libcurl sends for one text of the [CURLOPT_HTTPHEADER] list, as
    its documentation of that option has it.  A text with a colon is sent as
    it stands, byte for byte, if a name precedes the colon and something
    other than white space follows it; with nothing after the colon it is
    not sent.  A text without a colon is sent only in the form [name;], as
    [name:].  (Names libcurl handles itself, such as [Host] or
    [Content-Length], and [Content-Type] on a form post, are not told apart
    here; the program uses none of them in that way.) *)
Definition header_line (h : string) : option string :=
  match split_at ":" h with
  | Some (name, content) =>
      match name with
      | EmptyString => None
      | _ => if blank content then None else Some h
      end
  | None =>
      match split_at ";" h with
      | Some (name, EmptyString) => Some (name ++ ":")%string
      | _ => None
      end
  end.






End Curl.

Import Curl.

(** ** Environment, effects and the monad of the program *)

(** What the program cannot decide: whether [curl_easy_init] returns a
    handle, what the network answers to the [k]-th transfer of the run
    (counted from 0), and the text [curl_easy_strerror] gives for a code. *)
Record Env : Type := mkEnv {
  init_ok : bool;
  transport : nat -> Request -> TransportResult;
  strerror : CURLcode -> string
}.

(** The effects of a run, in the order they happen. *)
Inductive event : Type :=
| Cerr (s : string)
| CurlEasyInit (ok : bool)
| CurlEasyPerform (req : Request) (res : TransportResult)
| CurlSlistFreeAll
| CurlEasyCleanup.

Definition trace := list event.

(** A computation reads the environment and extends the trace. *)
Definition IO (A : Type) : Type := Env -> trace -> A * trace.

Definition ret {A : Type} (a : A) : IO A := fun _ t => (a, t).

Definition bind {A B : Type} (m : IO A) (k : A -> IO B) : IO B :=
  fun e t => let (a, t') := m e t in k a e t'.

Declare Scope io_scope.
Delimit Scope io_scope with io.
Notation "x <- m ;; k" := (bind m (fun x => k))
  (at level 61, m at next level, right associativity) : io_scope.
Notation "m ;; k" := (bind m (fun _ => k))
  (at level 61, right associativity) : io_scope.

Definition emit (ev : event) : IO unit := fun _ t => (tt, t ++ [ev]).

(** [std::cerr << s]. *)
Definition cerr (s : string) : IO unit := emit (Cerr s).

(** The transfers of a trace, in order. *)
Fixpoint transfers (t : trace) : list (Request * TransportResult) :=
  match t with
  | [] => []
  | CurlEasyPerform r res :: t' => (r, res) :: transfers t'
  | _ :: t' => transfers t'
  end.

(** [curl_easy_init()]: a fresh handle, or the null pointer. *)
Definition curl_easy_init : IO (option CURL) :=
  fun e t =>
    let ok := init_ok e in
    (if ok then Some fresh else None, t ++ [CurlEasyInit ok]).

(** [curl_easy_perform(curl)]: one transfer, blocking until it is over. *)
Definition curl_easy_perform (h : CURL) : IO CURLcode :=
  fun e t =>
    let req := request_of h in
    let res := transport e (length (transfers t)) req in
    (code_of h res, t ++ [CurlEasyPerform req res]).

(** [curl_easy_strerror(res)]: the library's text for a code. *)
Definition curl_easy_strerror (c : CURLcode) : IO string :=
  fun e t => (strerror e c, t).

Definition curl_slist_free_all (l : curl_slist) : IO unit :=
  emit CurlSlistFreeAll.

Definition curl_easy_cleanup (h : CURL) : IO unit := emit CurlEasyCleanup.

(** ** The program *)

(** The raw string literal of the source, line by line. *)
Definition json : string :=
  ("{" ++ nl ++
   "      " ++ q "agent_name" ++ ": " ++ q "mock-cpp-agent" ++ "," ++ nl ++
   "      " ++ q "project_id" ++ ": 1," ++ nl ++
   "      " ++ q "run_id" ++ ": " ++ q "run-123" ++ "," ++ nl ++
   "      " ++ q "meta" ++ ": { " ++ q "hostname" ++ ": " ++ q "mock-runner" ++
     ", " ++ q "timestamp" ++ ": " ++ q "2025-11-07T12:00:00Z" ++
     ", " ++ q "duration_seconds" ++ ": 12.5 }," ++ nl ++
   "      " ++ q "payload" ++ ": { " ++ q "performance" ++ ": { " ++
     q "functions" ++ ": [ { " ++ q "name" ++ ": " ++ q "doWork" ++
     ", " ++ q "p75_ms" ++ ": 10.2, " ++ q "p95_ms" ++ ": 20.1, " ++
     q "allocations" ++ ": 5 } ], " ++ q "max_memory_mb" ++ ": 128 }, " ++
     q "fuzz" ++ ": { " ++ q "runs" ++ ": 1000, " ++ q "crashes" ++
     ": [] } }" ++ nl ++
   "    }")%string.

(** [argv] is never empty: [argv0] is the program's name and [args] are the
    entries after it, so [argc] is one more than their number. *)
Definition argc (args : list string) : Z := Z.of_nat (S (length args)).

(** [argv[i]] for [i >= 1], read as a [std::string]. *)
Definition argv (args : list string) (i : nat) : string :=
  c_str (nth (pred i) args "").

(** [int main(int argc, char** argv)]: the exit code and the effects. *)
Definition main (argv0 : string) (args : list string) : IO Z :=
  (if argc args <? 3 then
     cerr "Usage: " ;; cerr (c_str argv0) ;;
     cerr (" <url> <agent_token>" ++ nl) ;;
     ret 1
   else
     let url := argv args 1 in
     let token := argv args 2 in
     curl <- curl_easy_init ;;
     match curl with
     | None => cerr ("curl init failed" ++ nl) ;; ret 1
     | Some curl =>
         let headers := NULL in
         let headers :=
           curl_slist_append headers "Content-Type: application/json" in
         let auth := ("X-Agent-Token: " ++ token)%string in
         let headers := curl_slist_append headers auth in
         let curl := curl_easy_setopt curl (CURLOPT_URL url) in
         let curl := curl_easy_setopt curl (CURLOPT_HTTPHEADER headers) in
         let curl := curl_easy_setopt curl (CURLOPT_POSTFIELDS json) in
         let curl :=
           curl_easy_setopt curl
             (CURLOPT_POSTFIELDSIZE (Z.of_nat (String.length json))) in
         res <- curl_easy_perform curl ;;
         (if negb (res =? CURLE_OK) then
            cerr "curl failed: " ;;
            msg <- curl_easy_strerror res ;; cerr (c_str msg) ;;
            cerr nl
          else ret tt) ;;
         curl_slist_free_all headers ;; curl_easy_cleanup curl ;; ret 0
     end)%io.

(** A run starts with no effect behind it. *)
Definition run (e : Env) (argv0 : string) (args : list string) : Z * trace :=
  main argv0 args e [].

Definition exit_code (r : Z * trace) : Z := fst r.

(** The transfers a run asked libcurl for, in order: one request for each
    [curl_easy_perform]. *)
Definition requests (r : Z * trace) : list Request :=
  map fst (transfers (snd r)).

(** The number of attempts of a run: its [curl_easy_perform] calls. *)
Definition attempts (r : Z * trace) : nat := length (requests r).

(** Everything a run wrote to standard error. *)
Fixpoint stderr_of (t : trace) : string :=
  match t with
  | [] => ""
  | Cerr s :: t' => (s ++ stderr_of t')%string
  | _ :: t' => stderr_of t'
  end.

Definition stderr (r : Z * trace) : string := stderr_of (snd r).

(** ** Derived notions *)

(** The request lines 23 to 30 of the source build from the two texts. *)
Definition report_request (url token : string) : Request :=
  {| req_method := POST;
     req_url := url;
     req_headers :=
       ["Content-Type: application/json"; ("X-Agent-Token: " ++ token)%string];
     req_body := json |}.

(** What line 32 writes after a transfer. *)
Definition failure_log (e : Env) (res : TransportResult) : trace :=
  match res with
  | HttpResponse _ | Completed => []
  | NetFailure c | HttpFailure _ c =>
      [Cerr "curl failed: "; Cerr (c_str (strerror e (Z.pos c))); Cerr nl]
  end.

(** What the caller of the program gets back: exit code and standard error. *)
Definition observable (r : Z * trace) : Z * string := (exit_code r, stderr r).

(** The kinds of event that matter for the handle's life. *)
Definition is_handle (ev : event) : bool :=
  match ev with CurlEasyInit true => true | _ => false end.

Definition is_cleanup (ev : event) : bool :=
  match ev with CurlEasyCleanup => true | _ => false end.

Definition is_free_all (ev : event) : bool :=
  match ev with CurlSlistFreeAll => true | _ => false end.

Definition is_cerr (ev : event) : bool :=
  match ev with Cerr _ => true | _ => false end.

(** How many events of a kind a trace holds. *)
Definition count (p : event -> bool) (t : trace) : nat :=
  length (filter p t).

(** ** Environments used in examples *)

(** A few of libcurl's error texts. *)
Definition libcurl_strerror (c : CURLcode) : string :=
  if c =? 7 then "Couldn't connect to server"
  else if c =? 28 then "Timeout was reached"
  else "Unknown error".

(** The handle is available and the network answers every transfer alike. *)
Definition env_always (res : TransportResult) : Env :=
  mkEnv true (fun _ _ => res) libcurl_strerror.

(** No handle can be had. *)
Definition env_no_handle : Env :=
  mkEnv false (fun _ _ => NetFailure 7) libcurl_strerror.

(** ** Facts about C strings *)

Lemma c_str_nul_free (s : string) : nul_free s = true -> c_str s = s.
Proof.
  induction s as [|c r IH]; simpl; [reflexivity|].
  destruct (Ascii.eqb c NUL); simpl; [discriminate|].
  intros H. now rewrite IH.
Qed.

Lemma nul_free_c_str (s : string) : nul_free (c_str s) = true.
Proof.
  induction s as [|c r IH]; simpl; [reflexivity|].
  destruct (Ascii.eqb c NUL) eqn:E; simpl; [reflexivity|].
  now rewrite E, IH.
Qed.

Lemma c_str_idem (s : string) : c_str (c_str s) = c_str s.
Proof. apply c_str_nul_free, nul_free_c_str. Qed.

Lemma nul_free_app (a b : string) :
  nul_free (a ++ b)%string = nul_free a && nul_free b.
Proof.
  induction a as [|c r IH]; simpl; [reflexivity|].
  now rewrite IH, andb_assoc.
Qed.

Lemma append_assoc (a b c : string) :
  ((a ++ b) ++ c)%string = (a ++ (b ++ c))%string.
Proof. induction a as [|x a IH]; simpl; [reflexivity | now rewrite IH]. Qed.

Lemma append_nil_r (a : string) : (a ++ "")%string = a.
Proof. induction a as [|x a IH]; simpl; [reflexivity | now rewrite IH]. Qed.

Lemma c_str_header (token : string) :
  c_str ("X-Agent-Token: " ++ c_str token)%string
  = ("X-Agent-Token: " ++ c_str token)%string.
Proof.
  apply c_str_nul_free. rewrite nul_free_app, nul_free_c_str. reflexivity.
Qed.

(** *** Header lines *)





(** With a blank token no token header is sent. *)
Lemma header_line_blank_token (token : string) :
  blank token = true ->
  header_line ("X-Agent-Token: " ++ token)%string = None.
Proof. intros H. unfold header_line. simpl. now rewrite H. Qed.


(** The size given with [CURLOPT_POSTFIELDSIZE] covers the whole text. *)
Lemma json_size : String.length json = 394%nat.
Proof. vm_compute. reflexivity. Qed.

Lemma json_body :
  (if Z.of_nat (String.length json) <? 0 then c_str json
   else substring 0 (Z.to_nat (Z.of_nat (String.length json))) json) = json.
Proof. vm_compute. reflexivity. Qed.

(** ** The shape of a run *)

Lemma argc_lt_3 (args : list string) :
  (argc args <? 3) = (length args <? 2)%nat.
Proof.
  unfold argc. destruct (Nat.ltb_spec (length args) 2);
    [apply Z.ltb_lt | apply Z.ltb_ge]; lia.
Qed.

(** With fewer than two arguments the run is the usage message. *)
Lemma run_usage (e : Env) (argv0 : string) (args : list string) :
  (length args < 2)%nat ->
  run e argv0 args
  = (1, [Cerr "Usage: "; Cerr (c_str argv0);
         Cerr (" <url> <agent_token>" ++ nl)%string]).
Proof.
  intros H. unfold run, main. rewrite argc_lt_3.
  apply Nat.ltb_lt in H. rewrite H. reflexivity.
Qed.

(** With two arguments or more and no handle, the run stops at once. *)
Lemma run_no_handle (e : Env) (argv0 url token : string) (rest : list string) :
  init_ok e = false ->
  run e argv0 (url :: token :: rest)
  = (1, [CurlEasyInit false; Cerr ("curl init failed" ++ nl)%string]).
Proof.
  intros H. unfold run, main. rewrite argc_lt_3. cbn [length Nat.ltb Nat.leb].
  unfold bind, curl_easy_init. rewrite H. reflexivity.
Qed.

(** With two arguments or more and a handle, the run is one transfer. *)
Lemma run_transfer (e : Env) (argv0 url token : string) (rest : list string) :
  init_ok e = true ->
  let req := report_request (c_str url) (c_str token) in
  let res := transport e 0 req in
  run e argv0 (url :: token :: rest)
  = (0, [CurlEasyInit true; CurlEasyPerform req res] ++ failure_log e res
        ++ [CurlSlistFreeAll; CurlEasyCleanup]).
Proof.
  intros H req res. unfold run, main. rewrite argc_lt_3.
  cbn [length Nat.ltb Nat.leb].
  unfold bind at 1. unfold curl_easy_init. rewrite H.
  unfold bind at 1. unfold curl_easy_perform.
  cbn [app transfers length].
  assert (Hreq :
    request_of
      (curl_easy_setopt
         (curl_easy_setopt
            (curl_easy_setopt
               (curl_easy_setopt fresh (CURLOPT_URL (argv (url :: token :: rest) 1)))
               (CURLOPT_HTTPHEADER
                  (curl_slist_append
                     (curl_slist_append NULL "Content-Type: application/json")
                     ("X-Agent-Token: " ++ argv (url :: token :: rest) 2)%string)))
            (CURLOPT_POSTFIELDS json))
         (CURLOPT_POSTFIELDSIZE (Z.of_nat (String.length json))))
    = req).
  { unfold request_of, curl_easy_setopt, fresh, argv, curl_slist_append, NULL.
    cbn [Curl.url httpheader postfields postfieldsize failonerror pred nth app].
    rewrite json_body, c_str_idem, c_str_header. reflexivity. }
  rewrite Hreq. fold res.
  unfold code_of, curl_easy_setopt, fresh.
  cbn [Curl.url httpheader postfields postfieldsize failonerror andb].
  destruct res; reflexivity.
Qed.

(** ** What a run shows of itself *)

Lemma transfers_app (t1 t2 : trace) :
  transfers (t1 ++ t2) = transfers t1 ++ transfers t2.
Proof.
  induction t1 as [|ev t1 IH]; simpl; [reflexivity|].
  destruct ev; simpl; now rewrite ?IH.
Qed.

Lemma stderr_of_app (t1 t2 : trace) :
  stderr_of (t1 ++ t2) = (stderr_of t1 ++ stderr_of t2)%string.
Proof.
  induction t1 as [|ev t1 IH]; simpl; [reflexivity|].
  destruct ev; simpl; rewrite ?IH; try reflexivity.
  symmetry. apply append_assoc.
Qed.

Lemma transfers_failure_log (e : Env) (res : TransportResult) :
  transfers (failure_log e res) = [].
Proof. destruct res; reflexivity. Qed.

(** The requests of any run: one, built from the first two arguments, when
    they are there and a handle was had; none otherwise. *)
Lemma requests_run (e : Env) (argv0 : string) (args : list string) :
  requests (run e argv0 args)
  = if (2 <=? length args)%nat && init_ok e
    then [report_request (argv args 1) (argv args 2)]
    else [].
Proof.
  destruct args as [|url [|token rest]].
  - rewrite run_usage by (simpl; lia). reflexivity.
  - rewrite run_usage by (simpl; lia). reflexivity.
  - cbn [length Nat.leb andb]. destruct (init_ok e) eqn:H.
    + rewrite (run_transfer e argv0 url token rest H).
      unfold requests. cbn [snd]. rewrite !transfers_app, transfers_failure_log.
      reflexivity.
    + rewrite (run_no_handle e argv0 url token rest H). reflexivity.
Qed.

(** Once the transfer was made the exit code is 0, whatever its result. *)
Lemma exit_code_transfer (e : Env) (argv0 url token : string)
    (rest : list string) :
  init_ok e = true -> exit_code (run e argv0 (url :: token :: rest)) = 0.
Proof. intros H. rewrite (run_transfer e argv0 url token rest H). reflexivity. Qed.

(** After a transfer standard error holds the failure log and nothing else. *)
Lemma stderr_transfer (e : Env) (argv0 url token : string)
    (rest : list string) :
  init_ok e = true ->
  stderr (run e argv0 (url :: token :: rest))
  = stderr_of
      (failure_log e
         (transport e 0 (report_request (c_str url) (c_str token)))).
Proof.
  intros H. rewrite (run_transfer e argv0 url token rest H).
  unfold stderr. cbn [snd]. rewrite !stderr_of_app. cbn [stderr_of app].
  now rewrite append_nil_r.
Qed.

(** An HTTP response, of whatever status, leaves standard error empty. *)
Lemma stderr_http (e : Env) (argv0 url token : string) (rest : list string)
    (status : Z) :
  init_ok e = true ->
  transport e 0 (report_request (c_str url) (c_str token))
  = HttpResponse status ->
  stderr (run e argv0 (url :: token :: rest)) = "".
Proof.
  intros H Ht. rewrite stderr_transfer by exact H. now rewrite Ht.
Qed.

Lemma attempts_transfer (e : Env) (argv0 url token : string)
    (rest : list string) :
  init_ok e = true -> attempts (run e argv0 (url :: token :: rest)) = 1%nat.
Proof.
  intros H. unfold attempts. rewrite requests_run, H. reflexivity.
Qed.

(** A transfer answered over HTTP, with whatever status: one attempt, exit
    code 0, standard error empty. *)
Lemma quiet_transfer (e : Env) (argv0 url token : string)
    (rest : list string) (status : Z) :
  init_ok e = true ->
  transport e 0 (report_request (c_str url) (c_str token))
  = HttpResponse status ->
  attempts (run e argv0 (url :: token :: rest)) = 1%nat
  /\ observable (run e argv0 (url :: token :: rest)) = (0, "").
Proof.
  intros H Ht. split; [now apply attempts_transfer|].
  unfold observable. rewrite exit_code_transfer by exact H.
  now rewrite (stderr_http e argv0 url token rest status H Ht).
Qed.

(** ** Exit code *)

(** C1 (the code departs from it): a submission that fails below HTTP is
    detected by the program, which writes [curl failed: ...] to standard
    error, and yet the process exits with code 0.  Evaluated at a refused
    connection ([CURLE_COULDNT_CONNECT], 7): one transfer, the failure text on
    standard error, exit code 0 and not 1. *)
Theorem network_failure_exits_zero :
  attempts
    (run (env_always (NetFailure 7)) "./send_report"
       ["http://localhost:8000/api/v1/agents/cpp/report"; "AGENT_TOKEN"])
  = 1%nat
  /\ stderr
       (run (env_always (NetFailure 7)) "./send_report"
          ["http://localhost:8000/api/v1/agents/cpp/report"; "AGENT_TOKEN"])
     = ("curl failed: Couldn't connect to server" ++ nl)%string
  /\ exit_code
       (run (env_always (NetFailure 7)) "./send_report"
          ["http://localhost:8000/api/v1/agents/cpp/report"; "AGENT_TOKEN"])
     = 0
  /\ exit_code (run env_no_handle "./send_report"
          ["http://localhost:8000/api/v1/agents/cpp/report"; "AGENT_TOKEN"])
     = 1.
Proof. vm_compute. repeat split; reflexivity. Qed.

(** ** Retries *)

(** C2, counterexample: with [--max-attempts 3] on the command line and a
    network that answers 503 to every transfer, the run makes one attempt,
    not three, and reports no failure. *)
Lemma three_attempts_on_503_refuted :
  attempts
    (run (env_always (HttpResponse 503)) "./send_report"
       ["http://x/report"; "t"; "--max-attempts"; "3"])
  = 1%nat
  /\ attempts
       (run (env_always (HttpResponse 503)) "./send_report"
          ["http://x/report"; "t"; "--max-attempts"; "3"])
     <> 3%nat
  /\ observable
       (run (env_always (HttpResponse 503)) "./send_report"
          ["http://x/report"; "t"; "--max-attempts"; "3"])
     = (0, "").
Proof. vm_compute. repeat split; try reflexivity. discriminate. Qed.

(** C2, as amended: whatever follows the two arguments on the command line
    (an attempt limit included), against a network that answers 503 to every
    transfer the program makes exactly one HTTP attempt; it does not retry,
    writes nothing to standard error and exits with code 0. *)
Theorem one_attempt_when_always_503 (e : Env) (argv0 url token : string)
    (rest : list string) :
  init_ok e = true ->
  (forall k req, transport e k req = HttpResponse 503) ->
  attempts (run e argv0 (url :: token :: rest)) = 1%nat
  /\ observable (run e argv0 (url :: token :: rest)) = (0, "").
Proof.
  intros H Ht. exact (quiet_transfer e argv0 url token rest 503 H (Ht _ _)).
Qed.

Lemma one_attempt_when_always_503_witness :
  init_ok (env_always (HttpResponse 503)) = true
  /\ (forall k req,
        transport (env_always (HttpResponse 503)) k req = HttpResponse 503)
  /\ attempts
       (run (env_always (HttpResponse 503)) "./send_report"
          ["http://x/report"; "t"; "--max-attempts"; "5"])
     = 1%nat
  /\ observable
       (run (env_always (HttpResponse 503)) "./send_report"
          ["http://x/report"; "t"; "--max-attempts"; "5"])
     = (0, "").
Proof.
  split; [reflexivity|]. split; [intros k req; reflexivity|].
  apply (one_attempt_when_always_503 (env_always (HttpResponse 503))
           "./send_report" "http://x/report" "t" ["--max-attempts"; "5"]).
  - reflexivity.
  - intros k req. reflexivity.
Defined.

(** ** Success *)

(** C3, counterexample: the result of the program does not carry the HTTP
    status.  Exit code and standard error are the same for every status
    from 200 to 299, so no reading of them gives the status back. *)
Lemma success_status_not_carried :
  ~ exists decode : Z * string -> Z,
      forall status, 200 <= status <= 299 ->
        decode
          (observable
             (run (env_always (HttpResponse status)) "./send_report"
                ["http://x/report"; "t"]))
        = status.
Proof.
  intros [decode H].
  pose proof (H 200 ltac:(lia)) as H200.
  pose proof (H 204 ltac:(lia)) as H204.
  vm_compute in H200. vm_compute in H204.
  rewrite H200 in H204. discriminate.
Qed.

(** C3, as amended: when the first transfer is answered with a status from
    200 to 299, the program has made exactly one HTTP attempt, makes no
    other, and reports success by exit code 0 with nothing on standard
    error; the status itself is neither read nor reported. *)
Theorem success_on_2xx (e : Env) (argv0 url token : string)
    (rest : list string) (status : Z) :
  init_ok e = true ->
  transport e 0 (report_request (c_str url) (c_str token))
  = HttpResponse status ->
  200 <= status <= 299 ->
  attempts (run e argv0 (url :: token :: rest)) = 1%nat
  /\ observable (run e argv0 (url :: token :: rest)) = (0, "").
Proof.
  intros H Ht _. exact (quiet_transfer e argv0 url token rest status H Ht).
Qed.

Lemma success_on_2xx_witness :
  init_ok (env_always (HttpResponse 201)) = true
  /\ transport (env_always (HttpResponse 201)) 0
       (report_request (c_str "http://x/report") (c_str "t"))
     = HttpResponse 201
  /\ 200 <= 201 <= 299
  /\ attempts
       (run (env_always (HttpResponse 201)) "./send_report"
          ["http://x/report"; "t"])
     = 1%nat
  /\ observable
       (run (env_always (HttpResponse 201)) "./send_report"
          ["http://x/report"; "t"])
     = (0, "").
Proof.
  split; [reflexivity|]. split; [reflexivity|]. split; [lia|].
  apply (success_on_2xx (env_always (HttpResponse 201)) "./send_report"
           "http://x/report" "t" [] 201).
  - reflexivity.
  - reflexivity.
  - lia.
Defined.

(** ** Client errors *)

(** C4, counterexample: a 404 answer is not reported as a failure.  The run
    exits with code 0, not 1, writes nothing to standard error, and cannot
    be told from a run answered with 200. *)
Lemma client_error_404_not_reported :
  attempts
    (run (env_always (HttpResponse 404)) "./send_report"
       ["http://x/report"; "t"])
  = 1%nat
  /\ observable
       (run (env_always (HttpResponse 404)) "./send_report"
          ["http://x/report"; "t"])
     = (0, "")
  /\ exit_code
       (run (env_always (HttpResponse 404)) "./send_report"
          ["http://x/report"; "t"])
     <> 1
  /\ observable
       (run (env_always (HttpResponse 404)) "./send_report"
          ["http://x/report"; "t"])
     = observable
         (run (env_always (HttpResponse 200)) "./send_report"
            ["http://x/report"; "t"]).
Proof. vm_compute. repeat split; try reflexivity. discriminate. Qed.

(** C4, as amended: when the first transfer is answered with a status from
    400 to 499 (404 among them), the program has made exactly one HTTP
    attempt and does not retry; it does not look at the status, so no
    failure is reported: nothing on standard error, exit code 0. *)
Theorem no_retry_on_4xx (e : Env) (argv0 url token : string)
    (rest : list string) (status : Z) :
  init_ok e = true ->
  transport e 0 (report_request (c_str url) (c_str token))
  = HttpResponse status ->
  400 <= status <= 499 ->
  attempts (run e argv0 (url :: token :: rest)) = 1%nat
  /\ observable (run e argv0 (url :: token :: rest)) = (0, "").
Proof.
  intros H Ht _. exact (quiet_transfer e argv0 url token rest status H Ht).
Qed.

Lemma no_retry_on_4xx_witness :
  init_ok (env_always (HttpResponse 404)) = true
  /\ transport (env_always (HttpResponse 404)) 0
       (report_request (c_str "http://x/report") (c_str "t"))
     = HttpResponse 404
  /\ 400 <= 404 <= 499
  /\ attempts
       (run (env_always (HttpResponse 404)) "./send_report"
          ["http://x/report"; "t"])
     = 1%nat
  /\ observable
       (run (env_always (HttpResponse 404)) "./send_report"
          ["http://x/report"; "t"])
     = (0, "").
Proof.
  split; [reflexivity|]. split; [reflexivity|]. split; [lia|].
  apply (no_retry_on_4xx (env_always (HttpResponse 404)) "./send_report"
           "http://x/report" "t" [] 404).
  - reflexivity.
  - reflexivity.
  - lia.
Defined.

(** ** Backoff *)

(** C5, counterexample: a submission that would be retried has no second
    attempt and so nothing between a first and a second one.  With
    [--max-attempts 3 --backoff-ms 100] and a connection refused every time,
    the run is: handle, one transfer, the failure text, release. *)
Lemma no_backoff_after_failed_attempt :
  snd
    (run (env_always (NetFailure 7)) "./send_report"
       ["http://x/report"; "t"; "--max-attempts"; "3"; "--backoff-ms"; "100"])
  = [CurlEasyInit true;
     CurlEasyPerform (report_request "http://x/report" "t") (NetFailure 7);
     Cerr "curl failed: "; Cerr "Couldn't connect to server"; Cerr nl;
     CurlSlistFreeAll; CurlEasyCleanup]
  /\ attempts
       (run (env_always (NetFailure 7)) "./send_report"
          ["http://x/report"; "t"; "--max-attempts"; "3";
           "--backoff-ms"; "100"])
     = 1%nat
  /\ nth_error
       (requests
          (run (env_always (NetFailure 7)) "./send_report"
             ["http://x/report"; "t"; "--max-attempts"; "3";
              "--backoff-ms"; "100"]))
       1
     = None.
Proof. vm_compute. repeat split; reflexivity. Qed.

(** C5, as amended: the program never retries.  A run has at most one HTTP
    attempt, so for every attempt index [i >= 1] there is no attempt [i+1]
    (the request at position [i], counted from 0) and no delay between
    attempts. *)
Theorem no_second_attempt (e : Env) (argv0 : string) (args : list string)
    (i : nat) :
  (1 <= i)%nat ->
  (attempts (run e argv0 args) <= 1)%nat
  /\ nth_error (requests (run e argv0 args)) i = None.
Proof.
  intros Hi. unfold attempts. rewrite requests_run.
  destruct ((2 <=? length args)%nat && init_ok e).
  - split; [simpl; lia|]. apply nth_error_None. simpl. lia.
  - split; [simpl; lia|]. apply nth_error_None. simpl. lia.
Qed.

Lemma no_second_attempt_witness :
  (1 <= 1)%nat
  /\ (attempts
        (run (env_always (NetFailure 28)) "./send_report"
           ["http://x/report"; "t"; "--backoff-ms"; "100"]) <= 1)%nat
  /\ nth_error
       (requests
          (run (env_always (NetFailure 28)) "./send_report"
             ["http://x/report"; "t"; "--backoff-ms"; "100"]))
       1
     = None.
Proof.
  split; [lia|].
  apply (no_second_attempt (env_always (NetFailure 28)) "./send_report"
           ["http://x/report"; "t"; "--backoff-ms"; "100"] 1).
  lia.
Defined.

(** ** The request on the wire *)




(** ** Missing arguments *)

(** C7: with fewer than two command-line arguments the program writes the
    usage message to standard error and exits with code 1; it makes no HTTP
    call and no call into libcurl at all. *)
Theorem usage_on_missing_arguments (e : Env) (argv0 : string)
    (args : list string) :
  (length args < 2)%nat ->
  exit_code (run e argv0 args) = 1
  /\ stderr (run e argv0 args)
     = ("Usage: " ++ c_str argv0 ++ " <url> <agent_token>" ++ nl)%string
  /\ attempts (run e argv0 args) = 0%nat
  /\ (forall ev, In ev (snd (run e argv0 args)) -> exists s, ev = Cerr s).
Proof.
  intros H. rewrite (run_usage e argv0 args H).
  split; [reflexivity|]. split.
  { unfold stderr. cbn [snd stderr_of]. now rewrite append_nil_r. }
  split; [reflexivity|].
  cbn [snd In]. intros ev [Hev | [Hev | [Hev | []]]]; subst ev; eauto.
Qed.

Lemma usage_on_missing_arguments_witness :
  (length ["http://x/report"] < 2)%nat
  /\ exit_code (run (env_always (HttpResponse 200)) "./send_report"
                  ["http://x/report"]) = 1
  /\ stderr (run (env_always (HttpResponse 200)) "./send_report"
               ["http://x/report"])
     = ("Usage: " ++ c_str "./send_report" ++ " <url> <agent_token>" ++ nl)%string
  /\ attempts (run (env_always (HttpResponse 200)) "./send_report"
                 ["http://x/report"]) = 0%nat
  /\ (forall ev,
        In ev (snd (run (env_always (HttpResponse 200)) "./send_report"
                      ["http://x/report"])) ->
        exists s, ev = Cerr s).
Proof.
  split; [simpl; lia|].
  apply (usage_on_missing_arguments (env_always (HttpResponse 200))
           "./send_report" ["http://x/report"]).
  simpl. lia.
Defined.

(** ** Independence of invocations *)

(** C8: two invocations with the same URL and token build the same request,
    whatever the program was called as, whatever follows the two arguments
    and whatever the network answers (provided both or neither obtain a
    handle); and the whole run, exit code and effects, is a function of the
    two arguments and the environment's answers alone.  [main] takes nothing
    from and leaves nothing to another invocation: its inputs are [argv] and
    the environment, its outputs the exit code and the trace. *)
Theorem same_arguments_same_request (e1 e2 : Env) (a1 a2 url token : string)
    (rest1 rest2 : list string) :
  init_ok e1 = init_ok e2 ->
  requests (run e1 a1 (url :: token :: rest1))
  = requests (run e2 a2 (url :: token :: rest2))
  /\ run e1 a1 (url :: token :: rest1) = run e1 a2 (url :: token :: rest2).
Proof.
  intros H. split.
  - rewrite !requests_run, H. reflexivity.
  - destruct (init_ok e1) eqn:H1.
    + now rewrite !(run_transfer e1 _ url token _ H1).
    + now rewrite !(run_no_handle e1 _ url token _ H1).
Qed.

Lemma same_arguments_same_request_witness :
  init_ok (env_always (HttpResponse 200)) = init_ok (env_always (NetFailure 7))
  /\ requests
       (run (env_always (HttpResponse 200)) "./send_report"
          ["http://x/report"; "t"])
     = requests
         (run (env_always (NetFailure 7)) "/usr/bin/send_report"
            ["http://x/report"; "t"; "--max-attempts"; "3"])
  /\ run (env_always (HttpResponse 200)) "./send_report"
       ["http://x/report"; "t"]
     = run (env_always (HttpResponse 200)) "/usr/bin/send_report"
         ["http://x/report"; "t"; "--max-attempts"; "3"].
Proof.
  split; [reflexivity|].
  apply (same_arguments_same_request (env_always (HttpResponse 200))
           (env_always (NetFailure 7)) "./send_report" "/usr/bin/send_report"
           "http://x/report" "t" [] ["--max-attempts"; "3"]).
  reflexivity.
Defined.




(** ** At most one request *)

(** C10: with two arguments or more the program makes at most one HTTP
    request.  Without a handle it exits with code 1 after [curl init failed]
    and has sent nothing; with a handle the trace holds exactly one
    [curl_easy_perform], whatever status or error the transfer ends with. *)
Theorem at_most_one_request (e : Env) (argv0 url token : string)
    (rest : list string) :
  (attempts (run e argv0 (url :: token :: rest)) <= 1)%nat
  /\ if init_ok e
     then length (transfers (snd (run e argv0 (url :: token :: rest)))) = 1%nat
     else snd (run e argv0 (url :: token :: rest))
          = [CurlEasyInit false; Cerr ("curl init failed" ++ nl)%string]
          /\ attempts (run e argv0 (url :: token :: rest)) = 0%nat
          /\ exit_code (run e argv0 (url :: token :: rest)) = 1.
Proof.
  destruct (init_ok e) eqn:H.
  - pose proof (attempts_transfer e argv0 url token rest H) as Ha.
    split; [lia|]. unfold attempts, requests in Ha.
    now rewrite length_map in Ha.
  - rewrite (run_no_handle e argv0 url token rest H).
    split; [cbv; lia|]. repeat split.
Qed.

(** ** Further properties of [main] *)

(** X1: every handle obtained is released exactly once, and nothing is
    released that was not obtained.  In every run the number of
    [curl_easy_cleanup] calls and the number of [curl_slist_free_all] calls
    both equal the number of successful [curl_easy_init] calls (which is at
    most one): the usage path and the failed-init path release nothing, the
    transfer path releases once, whether the transfer succeeded or not. *)
Theorem release_balanced (e : Env) (argv0 : string) (args : list string) :
  count is_cleanup (snd (run e argv0 args))
  = count is_handle (snd (run e argv0 args))
  /\ count is_free_all (snd (run e argv0 args))
     = count is_handle (snd (run e argv0 args))
  /\ (count is_handle (snd (run e argv0 args)) <= 1)%nat.
Proof.
  destruct args as [|url [|token rest]].
  - rewrite run_usage by (simpl; lia). cbv. repeat split; lia.
  - rewrite run_usage by (simpl; lia). cbv. repeat split; lia.
  - destruct (init_ok e) eqn:H.
    + rewrite (run_transfer e argv0 url token rest H). cbn [snd].
      destruct (transport e 0 (report_request (c_str url) (c_str token)));
        cbv; repeat split; lia.
    + rewrite (run_no_handle e argv0 url token rest H).
      cbv. repeat split; lia.
Qed.

(** X2: the exit code tells whether a transfer was attempted and nothing
    more.  It is 0 exactly when there were two arguments or more and a
    handle was obtained, which is exactly when one request was made, and 1
    otherwise; it depends neither on what the arguments contain (an empty
    URL or token is not rejected) nor on how the transfer ended. *)
Theorem exit_code_characterised (e : Env) (argv0 : string)
    (args : list string) :
  exit_code (run e argv0 args)
  = (if (2 <=? length args)%nat && init_ok e then 0 else 1)
  /\ attempts (run e argv0 args)
     = (if (2 <=? length args)%nat && init_ok e then 1%nat else 0%nat).
Proof.
  split.
  - destruct args as [|url [|token rest]].
    + rewrite run_usage by (simpl; lia). reflexivity.
    + rewrite run_usage by (simpl; lia). reflexivity.
    + cbn [length Nat.leb andb]. destruct (init_ok e) eqn:H.
      * now apply exit_code_transfer.
      * now rewrite (run_no_handle e argv0 url token rest H).
  - unfold attempts. rewrite requests_run.
    now destruct ((2 <=? length args)%nat && init_ok e).
Qed.

(** X3: a transfer that fails below HTTP with code [c] is logged as
    [curl failed: ], the text [curl_easy_strerror] gives for that very code,
    and a line feed; this is all the run writes to standard error. *)
Theorem network_failure_logged (e : Env) (argv0 url token : string)
    (rest : list string) (c : positive) :
  init_ok e = true ->
  transport e 0 (report_request (c_str url) (c_str token)) = NetFailure c ->
  stderr (run e argv0 (url :: token :: rest))
  = ("curl failed: " ++ c_str (strerror e (Z.pos c)) ++ nl)%string.
Proof.
  intros H Ht. rewrite stderr_transfer by exact H. rewrite Ht.
  cbn [failure_log stderr_of]. now rewrite append_nil_r.
Qed.

Lemma network_failure_logged_witness :
  init_ok (env_always (NetFailure 28)) = true
  /\ transport (env_always (NetFailure 28)) 0
       (report_request (c_str "http://x/report") (c_str "t"))
     = NetFailure 28
  /\ stderr
       (run (env_always (NetFailure 28)) "./send_report"
          ["http://x/report"; "t"])
     = ("curl failed: "
        ++ c_str (strerror (env_always (NetFailure 28)) (Z.pos 28)) ++ nl)%string.
Proof.
  split; [reflexivity|]. split; [reflexivity|].
  apply (network_failure_logged (env_always (NetFailure 28)) "./send_report"
           "http://x/report" "t" [] 28).
  - reflexivity.
  - reflexivity.
Defined.

(** X4: with two arguments or more, standard error stays empty exactly when
    a handle was obtained and the transfer was completed, be it with an HTTP
    response of whatever status (an error status included) or without any
    HTTP exchange; a missing handle, and a transfer that failed before or
    after a status line, each leave a message. *)
Theorem stderr_empty_iff_completed (e : Env) (argv0 url token : string)
    (rest : list string) :
  stderr (run e argv0 (url :: token :: rest)) = ""
  <-> (init_ok e = true
       /\ ((exists status,
              transport e 0 (report_request (c_str url) (c_str token))
              = HttpResponse status)
           \/ transport e 0 (report_request (c_str url) (c_str token))
              = Completed)).
Proof.
  destruct (init_ok e) eqn:H.
  - rewrite stderr_transfer by exact H.
    destruct (transport e 0 (report_request (c_str url) (c_str token)))
      as [status | c | status c |].
    + split; [intros _; split; [reflexivity | left; now exists status]
             | reflexivity].
    + split; [discriminate|].
      intros [_ [[status Hs] | Hs]]; discriminate.
    + split; [discriminate|].
      intros [_ [[status' Hs] | Hs]]; discriminate.
    + split; [intros _; split; [reflexivity | now right] | reflexivity].
  - rewrite (run_no_handle e argv0 url token rest H).
    split; [discriminate | intros [Hf _]; discriminate].
Qed.

(** X5: neither the URL nor the token reaches the exit code or standard
    error.  Two runs in the same environment whose requests are answered
    alike give the caller the same exit code and the same text, whatever
    URLs, tokens, program names and further arguments they were given. *)
Theorem arguments_not_disclosed (e : Env)
    (a1 a2 url1 url2 token1 token2 : string) (rest1 rest2 : list string) :
  transport e 0 (report_request (c_str url1) (c_str token1))
  = transport e 0 (report_request (c_str url2) (c_str token2)) ->
  observable (run e a1 (url1 :: token1 :: rest1))
  = observable (run e a2 (url2 :: token2 :: rest2)).
Proof.
  intros Ht. unfold observable. destruct (init_ok e) eqn:H.
  - rewrite !exit_code_transfer by exact H.
    rewrite !stderr_transfer by exact H. now rewrite Ht.
  - now rewrite !(run_no_handle e _ _ _ _ H).
Qed.

Lemma arguments_not_disclosed_witness :
  transport (env_always (NetFailure 7)) 0
    (report_request (c_str "http://x/report") (c_str "s3cr3t"))
  = transport (env_always (NetFailure 7)) 0
      (report_request (c_str "http://y/other") (c_str "hunter2"))
  /\ observable
       (run (env_always (NetFailure 7)) "./send_report"
          ["http://x/report"; "s3cr3t"])
     = observable
         (run (env_always (NetFailure 7)) "/usr/bin/send_report"
            ["http://y/other"; "hunter2"; "--verbose"]).
Proof.
  split; [reflexivity|].
  apply (arguments_not_disclosed (env_always (NetFailure 7)) "./send_report"
           "/usr/bin/send_report" "http://x/report" "http://y/other"
           "s3cr3t" "hunter2" [] ["--verbose"]).
  reflexivity.
Defined.

(** X6: the order of a run that obtained a handle.  The transfer comes
    right after the handle, only writes to standard error may follow it, and
    the two release calls, list first and handle second, end the run: no
    transfer is made after the header list was freed, and the release is
    reached after a failed transfer as after a successful one. *)
Theorem release_ends_run (e : Env) (argv0 url token : string)
    (rest : list string) :
  init_ok e = true ->
  exists res log,
    snd (run e argv0 (url :: token :: rest))
    = [CurlEasyInit true;
       CurlEasyPerform (report_request (c_str url) (c_str token)) res]
      ++ log ++ [CurlSlistFreeAll; CurlEasyCleanup]
    /\ forallb is_cerr log = true.
Proof.
  intros H. rewrite (run_transfer e argv0 url token rest H). cbn [snd].
  exists (transport e 0 (report_request (c_str url) (c_str token))).
  exists (failure_log e
            (transport e 0 (report_request (c_str url) (c_str token)))).
  split; [reflexivity|].
  now destruct (transport e 0 (report_request (c_str url) (c_str token))).
Qed.

Lemma release_ends_run_witness :
  init_ok (env_always (NetFailure 7)) = true
  /\ exists res log,
       snd (run (env_always (NetFailure 7)) "./send_report"
              ["http://x/report"; "t"])
       = [CurlEasyInit true;
          CurlEasyPerform
            (report_request (c_str "http://x/report") (c_str "t")) res]
         ++ log ++ [CurlSlistFreeAll; CurlEasyCleanup]
       /\ forallb is_cerr log = true.
Proof.
  split; [reflexivity|].
  apply (release_ends_run (env_always (NetFailure 7)) "./send_report"
           "http://x/report" "t" []).
  reflexivity.
Defined.
